(** * pyschism.driver.makefile: the Makefile driver generator

    A shallow embedding of [pyschism/driver/makefile.py]: the classes
    [Makefile], [DefaultMakefile], [SlurmMakefile] and the dispatching
    constructor [MakefileDriver], together with the Python string
    operations they call ([str.replace], [str.join]) and the file
    operations of [Makefile.write]. *)

From Stdlib Require Import Ascii.
From stdpp Require Import gmap strings list pretty.

(** ** Python [str] operations *)

Module Str.

Definition LF : ascii := "010"%char.
Definition TAB : ascii := "009"%char.
Definition SPACE : ascii := " "%char.
Definition QUOTE : ascii := "034"%char.

(** One-character strings for the characters a literal cannot hold. *)
Definition nl : string := String LF "".
Definition tab : string := String TAB "".
Definition Q : string := String QUOTE "".

(** [s.startswith(p)] *)
Fixpoint startswith (p s : string) : bool :=
  match p, s with
  | EmptyString, _ => true
  | String a p', String b s' => if decide (a = b) then startswith p' s' else false
  | String _ _, EmptyString => false
  end.

(** [s[n:]] *)
Fixpoint drop (n : nat) (s : string) : string :=
  match n, s with
  | O, _ => s
  | S n', String _ s' => drop n' s'
  | S _, EmptyString => EmptyString
  end.

(** [n * s] *)
Fixpoint repeat (s : string) (n : nat) : string :=
  match n with
  | O => ""
  | S n' => s +:+ repeat s n'
  end.

(** [sep.join(xs)] *)
Fixpoint join (sep : string) (xs : list string) : string :=
  match xs with
  | [] => ""
  | [x] => x
  | x :: xs' => x +:+ sep +:+ join sep xs'
  end.

(** [s.replace(old, new)] for a non-empty [old]: the occurrences of [old]
    are found scanning from the left and do not overlap.  [skip] counts
    the characters of a match that are still to be passed over. *)
Fixpoint replace_from (old new : string) (skip : nat) (s : string) : string :=
  match s with
  | EmptyString => EmptyString
  | String c s' =>
      match skip with
      | S k => replace_from old new k s'
      | O =>
          if startswith old s
          then new +:+ replace_from old new (Nat.pred (String.length old)) s'
          else String c (replace_from old new 0 s')
      end
  end.

(** [s.replace("", new)] puts [new] before every character and at the end. *)
Fixpoint replace_empty (new s : string) : string :=
  match s with
  | EmptyString => new
  | String c s' => new +:+ String c (replace_empty new s')
  end.

Definition replace (old new s : string) : string :=
  match old with
  | EmptyString => replace_empty new s
  | String _ _ => replace_from old new 0 s
  end.

(** [s.split("\n")]: the lines of [s]; never empty. *)
Fixpoint split_lines (s : string) : list string :=
  match s with
  | EmptyString => [""]
  | String c s' =>
      if decide (c = LF) then "" :: split_lines s'
      else match split_lines s' with
           | l :: ls => String c l :: ls
           | [] => [String c ""]
           end
  end.

(** [s.split(sep)] for a separator of one character; never empty. *)
Fixpoint split_on (sep : ascii) (s : string) : list string :=
  match s with
  | EmptyString => [""]
  | String c s' =>
      if decide (c = sep) then "" :: split_on sep s'
      else match split_on sep s' with
           | l :: ls => String c l :: ls
           | [] => [String c ""]
           end
  end.

(** The conversion the generators apply: [piece.replace("    ", "\t")]. *)
Definition tabify (s : string) : string := replace "    " tab s.

(** Leading-only conversion, as a reader of "leading four-space sequences
    are converted to a tab" would write it: groups of four spaces at the
    start of a line become tabs, the rest of the line is kept. *)
Fixpoint tabify_leading (s : string) : string :=
  match s with
  | String " " (String " " (String " " (String " " rest))) =>
      String TAB (tabify_leading rest)
  | _ => s
  end.

(** Whether [s] holds a run of four spaces somewhere. *)
Fixpoint has_four_spaces (s : string) : bool :=
  match s with
  | EmptyString => false
  | String _ s' => startswith "    " s || has_four_spaces s'
  end.

End Str.

(** ** Python values

    The values the driver can be handed: the [server_config] argument of
    the constructors and the [overwrite] argument of [write] are not
    checked by Python, so any object can arrive there. *)

(** The instance dictionary of a configuration object. *)
Abbreviation attrs := (list (string * string)).

Inductive pyobj : Type :=
| PyNone
| PyBool (b : bool)
| PyInt (n : Z)
| PyStr (s : string)
| PyServerConfig (a : attrs)   (* an instance of ServerConfig itself *)
| PySlurmConfig (a : attrs).   (* an instance of SlurmConfig *)

(** [pyschism.server], which [makefile.py] imports: the driver uses
    [ServerConfig()], [str(config)] and [isinstance(_, SlurmConfig)] only.
    The renderings are left open; the driver never looks inside them. *)
Class ServerModule : Type := {
  ServerConfig_new : attrs;               (* the attributes of ServerConfig() *)
  ServerConfig_str : attrs → string;      (* ServerConfig.__str__ *)
  SlurmConfig_str : attrs → string        (* SlurmConfig.__str__ *)
}.

(** [isinstance(v, SlurmConfig)] *)
Definition isinstance_SlurmConfig (v : pyobj) : bool :=
  match v with
  | PySlurmConfig _ => true
  | _ => false
  end.

(** The values the signature [server_config: ServerConfig = None]
    announces: a configuration object, or [None] for the default one. *)
Definition recognized_config (v : pyobj) : bool :=
  match v with
  | PyNone | PyServerConfig _ | PySlurmConfig _ => true
  | _ => false
  end.

(** [v is True]: identity with the one object [True]. *)
Definition is_True (v : pyobj) : bool :=
  match v with
  | PyBool true => true
  | _ => false
  end.

(** [bool(v)], the truth value an [if v:] would test. *)
Definition truthy (v : pyobj) : bool :=
  match v with
  | PyNone => false
  | PyBool b => b
  | PyInt n => negb (n =? 0)%Z
  | PyStr s => negb (String.eqb s "")
  | PyServerConfig _ | PySlurmConfig _ => true
  end.

(** [str(v)] *)
Definition py_str `{ServerModule} (v : pyobj) : string :=
  match v with
  | PyNone => "None"
  | PyBool true => "True"
  | PyBool false => "False"
  | PyInt n => pretty n
  | PyStr s => s
  | PyServerConfig a => ServerConfig_str a
  | PySlurmConfig a => SlurmConfig_str a
  end.

(** The exceptions that leave [write]: the [IOError] it raises itself, with
    its message, and those of [path.exists()] and [open], with the file
    name they carry. *)
Inductive exn : Type :=
| IOError (msg : string)
| FileNotFoundError (filename : string)
| IsADirectoryError (filename : string)
| NotADirectoryError (filename : string)
| PermissionError (filename : string)
| OSError (errno : nat) (filename : string)
| ValueError (msg : string).

(** The outcome of a call: a value, or a raised exception. *)
Inductive result (A : Type) : Type :=
| Return (a : A)
| Raise (e : exn).
Arguments Return {A} a.
Arguments Raise {A} e.

(** ** The template text of the targets *)

Import Str.

(** [Makefile.tail] *)
Definition Makefile_tail : string :=
  "
tail:
    tail -f outputs/mirror.out  outputs/fatal.error
".

(** [Makefile.symlinks] *)
Definition Makefile_symlinks : string :=
  "
symlinks:
    @set -e;\
    if [ ! -z $${SYMLINK_OUTPUTS_DIR} ];\
    then \
        ln -sf $${SYMLINK_OUTPUTS_DIR} $${ROOT_DIR}outputs;\
    else \
        mkdir -p $${ROOT_DIR}outputs;\
    fi;\
    touch outputs/mirror.out outputs/fatal.error
".

(** The three header lines both [__str__] methods start with. *)
Definition header : list string :=
  [ "# Makefile driver generated by PySCHISM.";
    "MAKEFILE_PATH:=$(abspath $(lastword $(MAKEFILE_LIST)))";
    "ROOT_DIR:=$(dir $(MAKEFILE_PATH))" ].

(** [DefaultMakefile.default] *)
Definition DefaultMakefile_default : string :=
  "
default: symlinks
".

(** [DefaultMakefile.run] *)
Definition DefaultMakefile_run : string :=
  "
run: default
    @set -e;\
    eval 'tail -f outputs/mirror.out  outputs/fatal.error &';\
    tail_pid=$${!};\
    ${MPI_LAUNCHER} ${NPROC} ${SCHISM_BINARY};\
    kill " +:+ Q +:+ "$${tail_pid}" +:+ Q +:+ "
".

(** [SlurmMakefile.default] *)
Definition SlurmMakefile_default : string :=
  "
default: slurm
".

(** [SlurmMakefile.slurm] *)
Definition SlurmMakefile_slurm : string :=
  "
slurm: symlinks
    @set -e;\
    printf " +:+ Q +:+ "#!/bin/bash --login\n" +:+ Q +:+ " > ${SLURM_JOB_FILE};\
    printf " +:+ Q +:+ "#SBATCH -D .\n" +:+ Q +:+ " >> ${SLURM_JOB_FILE};\
    if [ ! -z " +:+ Q +:+ "${SLURM_ACCOUNT}" +:+ Q +:+ " ];\
    then \
        printf " +:+ Q +:+ "#SBATCH -A ${SLURM_ACCOUNT}\n" +:+ Q +:+ " >> ${SLURM_JOB_FILE};\
    fi;\
    if [ ! -z " +:+ Q +:+ "${SLURM_MAIL_USER}" +:+ Q +:+ " ];\
    then \
        printf " +:+ Q +:+ "#SBATCH --mail-user=${SLURM_MAIL_USER}\n" +:+ Q +:+ " >> ${SLURM_JOB_FILE};\
        printf " +:+ Q +:+ "#SBATCH --mail-type=${SLURM_MAIL_TYPE:-all}\n" +:+ Q +:+ " >> ${SLURM_JOB_FILE};\
    fi;\
    printf " +:+ Q +:+ "#SBATCH --output=${SLURM_LOG_FILE}\n" +:+ Q +:+ " >> ${SLURM_JOB_FILE};\
    printf " +:+ Q +:+ "#SBATCH -n ${SLURM_NTASKS}\n" +:+ Q +:+ " >> ${SLURM_JOB_FILE};\
    if [ ! -z " +:+ Q +:+ "${SLURM_WALLTIME}" +:+ Q +:+ " ];\
    then \
        printf " +:+ Q +:+ "#SBATCH --time=${SLURM_WALLTIME}\n" +:+ Q +:+ " >> ${SLURM_JOB_FILE};\
    fi;\
    if [ ! -z " +:+ Q +:+ "${SLURM_PARTITION}" +:+ Q +:+ " ] ;\
    then \
        printf " +:+ Q +:+ "#SBATCH --partition=${SLURM_PARTITION}\n" +:+ Q +:+ " >> ${SLURM_JOB_FILE};\
    fi;\
    printf " +:+ Q +:+ "\nset -e\n" +:+ Q +:+ " >> ${SLURM_JOB_FILE};\
    printf " +:+ Q +:+ "${MPI_LAUNCHER} ${SCHISM_BINARY}" +:+ Q +:+ " >> ${SLURM_JOB_FILE}
".

(** [SlurmMakefile.run] *)
Definition SlurmMakefile_run : string :=
  "
run: $(if ! $(" +:+ Q +:+ "$(wildcard $(SLURM_JOB_FILE))" +:+ Q +:+ "," +:+ Q +:+ Q +:+ "), slurm)
    @set -e;\
    touch ${SLURM_LOG_FILE};\
    eval 'tail -f ${SLURM_LOG_FILE} outputs/mirror.out outputs/fatal.error &';\
    tail_pid=$${!};\
    job_id=$$(sbatch ${SLURM_JOB_FILE});\
    printf " +:+ Q +:+ "$${job_id}\n" +:+ Q +:+ ";\
    job_id=$$(echo $${job_id} | awk '{print $$NF}');\
    ctrl_c() { \
        scancel " +:+ Q +:+ "$${job_id}" +:+ Q +:+ ";\
    };\
    while [ $$(squeue -j $${job_id} | wc -l) -eq 2 ];\
    do \
        trap ctrl_c SIGINT;\
    done;\
    kill " +:+ Q +:+ "$${tail_pid}" +:+ Q +:+ "
".

(** ** The classes *)

Inductive makefile_class : Type :=
| DefaultMakefile
| SlurmMakefile.

(** An instance of one of the two classes: its class and the attribute
    that [Makefile.__init__] sets. *)
Record makefile : Type := {
  ob_type : makefile_class;
  server_config : pyobj
}.

(** ** Paths and files

    [pathlib.Path(path)] on a POSIX system, kept as the string that
    [str(path)] gives.  The root is [/], or [//] when the path starts with
    exactly two slashes; empty components and [.] components go away,
    [..] stays; a path with nothing left is [.]. *)
Definition path_root (path : string) : string :=
  if startswith "///" path then "/"
  else if startswith "//" path then "//"
  else if startswith "/" path then "/"
  else "".

Definition path_parts (path : string) : list string :=
  filter (λ c, c ≠ "" ∧ c ≠ ".") (split_on "/" path).

Definition path_str (root : string) (parts : list string) : string :=
  match root, parts with
  | EmptyString, [] => "."
  | _, _ => root +:+ join "/" parts
  end.

Definition pathlib_Path (path : string) : string :=
  path_str (path_root path) (path_parts path).

(** [path.parent]: the directory in which [open] looks for the file. *)
Definition Path_parent (path : string) : string :=
  path_str (path_root path) (removelast (path_parts path)).

(** What is at a path.  A path with no entry is one where nothing is; a
    file can be created there when the directory of the path is a [Dir].
    What the system answers for other reasons than files and directories
    (permissions, names it does not take) is part of the state. *)
Inductive entry : Type :=
| File (content : string)
    (* a regular file that open(path, 'w') opens and empties *)
| Dir
    (* a directory *)
| Unwritable (e : exn)
    (* something that is no directory and that open(path, 'w') does not
       open: exists() is True, open raises e (a file the process may not
       write: PermissionError) *)
| Uncreatable (e : exn)
    (* nothing is there and nothing can be put there: exists() is False,
       open raises e (a directory the process may not write to:
       PermissionError; a NUL character in the name: ValueError) *)
| Unexaminable (e : exn).
    (* the system refuses to look: exists() raises e, and so does open (a
       name that is too long: OSError; a directory the process may not
       search: PermissionError) *)

(** Files as [Makefile.write] meets them.  Keys are paths as
    [pathlib.Path] prints them; two paths that reach one file, through
    [..] or a link, are two keys. *)
Abbreviation filesystem := (gmap string entry).

(** A call that reads and writes files: it ends in a value or an
    exception, and leaves a file system behind either way. *)
Definition IO (A : Type) : Type := filesystem → result A * filesystem.

#[global] Instance IO_ret : MRet IO := λ A a fs, (Return a, fs).

#[global] Instance IO_bind : MBind IO := λ A B k m fs,
  match m fs with
  | (Return a, fs') => k a fs'
  | (Raise e, fs') => (Raise e, fs')
  end.

Definition raise {A : Type} (e : exn) : IO A := λ fs, (Raise e, fs).

(** [path.exists()] *)
Definition Path_exists (path : string) : IO bool := λ fs,
  match fs !! path with
  | Some (File _) | Some Dir | Some (Unwritable _) => (Return true, fs)
  | Some (Unexaminable e) => (Raise e, fs)
  | Some (Uncreatable _) | None => (Return false, fs)
  end.

(** [open(path, 'w')]: a file that is there is emptied, a file that is not
    there is created in its directory; the handle is the path.  A
    directory at the path, a missing directory above it, or a file where
    the directory should be, make [open] raise. *)
Definition open_w (path : string) : IO string := λ fs,
  match fs !! path with
  | Some (File _) => (Return path, <[path := File ""]> fs)
  | Some Dir => (Raise (IsADirectoryError path), fs)
  | Some (Unwritable e) | Some (Uncreatable e) | Some (Unexaminable e) => (Raise e, fs)
  | None =>
      match fs !! Path_parent path with
      | Some Dir => (Return path, <[path := File ""]> fs)
      | Some (File _) | Some (Unwritable _) => (Raise (NotADirectoryError path), fs)
      | _ => (Raise (FileNotFoundError path), fs)
      end
  end.

(** [f.write(data)]: [data] goes after what the handle wrote before. *)
Definition file_write (f : string) (data : string) : IO unit := λ fs,
  match fs !! f with
  | Some (File written) => (Return (), <[f := File (written +:+ data)]> fs)
  | _ => (Return (), <[f := File data]> fs)
  end.

Module Makefile.

Section Methods.
Context `{srv : ServerModule}.

(** [Makefile.__init__] *)
Definition init (cls : makefile_class) (server_config : pyobj) : makefile :=
  let server_config :=
    match server_config with
    | PyNone => PyServerConfig ServerConfig_new
    | _ => server_config
    end in
  {| ob_type := cls; server_config := server_config |}.

(** The properties, looked up on the class of [self]. *)
Definition tail (self : makefile) : string := Makefile_tail.

Definition symlinks (self : makefile) : string := Makefile_symlinks.

Definition default (self : makefile) : string :=
  match ob_type self with
  | DefaultMakefile => DefaultMakefile_default
  | SlurmMakefile => SlurmMakefile_default
  end.

Definition run (self : makefile) : string :=
  match ob_type self with
  | DefaultMakefile => DefaultMakefile_run
  | SlurmMakefile => SlurmMakefile_run
  end.

(** [slurm] is a property of [SlurmMakefile] alone, and only
    [SlurmMakefile.__str__] reads it. *)
Definition slurm (self : makefile) : string := SlurmMakefile_slurm.

(** The list [f] of [DefaultMakefile.__str__] *)
Definition DefaultMakefile_f (self : makefile) : list string :=
  [ "# Makefile driver generated by PySCHISM.";
    "MAKEFILE_PATH:=$(abspath $(lastword $(MAKEFILE_LIST)))";
    "ROOT_DIR:=$(dir $(MAKEFILE_PATH))";
    py_str (server_config self);
    default self;
    symlinks self;
    run self;
    tail self ].

(** [DefaultMakefile.__str__] *)
Definition DefaultMakefile_str (self : makefile) : string :=
  join nl ((λ line, replace "    " tab line) <$> DefaultMakefile_f self).

(** The list [f] of [SlurmMakefile.__str__] *)
Definition SlurmMakefile_f (self : makefile) : list string :=
  [ "# Makefile driver generated by PySCHISM.";
    "MAKEFILE_PATH:=$(abspath $(lastword $(MAKEFILE_LIST)))";
    "ROOT_DIR:=$(dir $(MAKEFILE_PATH))";
    py_str (server_config self);
    default self;
    symlinks self;
    slurm self;
    run self;
    tail self ].

(** [SlurmMakefile.__str__] *)
Definition SlurmMakefile_str (self : makefile) : string :=
  join nl ((λ line, replace "    " tab line) <$> SlurmMakefile_f self).

(** The list [f] and [str(self)], by the class of [self]. *)
Definition f (self : makefile) : list string :=
  match ob_type self with
  | DefaultMakefile => DefaultMakefile_f self
  | SlurmMakefile => SlurmMakefile_f self
  end.

Definition str (self : makefile) : string :=
  match ob_type self with
  | DefaultMakefile => DefaultMakefile_str self
  | SlurmMakefile => SlurmMakefile_str self
  end.

(** [Makefile.write] *)
Definition write (self : makefile) (path : string) (overwrite : pyobj) : IO unit :=
  let path := pathlib_Path path in
  path_exists ← Path_exists path;
  if path_exists && negb (is_True overwrite) then
    raise (IOError ("File " +:+ path +:+ " exists and overwrite is not True."))
  else
    f ← open_w path;
    file_write f (str self).

End Methods.

End Makefile.

(** [MakefileDriver.__new__] *)
Definition MakefileDriver_new `{srv : ServerModule} (server_config : pyobj) : result makefile :=
  if isinstance_SlurmConfig server_config then
    Return (Makefile.init SlurmMakefile server_config)
  else
    Return (Makefile.init DefaultMakefile server_config).

(** A stand-in for [pyschism.server] to run the driver on: a configuration
    renders as one [NAME=value] line per attribute. *)
Definition show_attrs (a : attrs) : string :=
  join nl ((λ kv, kv.1 +:+ "=" +:+ kv.2) <$> a).

Definition demo_server : ServerModule := {|
  ServerConfig_new := [("MPI_LAUNCHER", "mpiexec -n"); ("NPROC", "1")];
  ServerConfig_str := show_attrs;
  SlurmConfig_str := show_attrs
|}.

(** The lines of the fixed text of both classes: everything in the lists
    [f] but the rendering of the configuration. *)
Definition template_lines : list string :=
  mjoin (split_lines <$>
    header ++ [ DefaultMakefile_default; SlurmMakefile_default; Makefile_symlinks;
                SlurmMakefile_slurm; DefaultMakefile_run; SlurmMakefile_run;
                Makefile_tail ]).

(** The first line of the batch [run] rule, written out on its own. *)
Definition run_rule_line : string :=
  "run: $(if ! $(" +:+ Q +:+ "$(wildcard $(SLURM_JOB_FILE))" +:+ Q
  +:+ "," +:+ Q +:+ Q +:+ "), slurm)".

(** ** Reading the texts *)

(** A line that opens a rule: it is not empty and does not start with a
    tab, as the lines of a recipe do. *)
Definition rule_line (l : string) : bool :=
  negb (bool_decide (l = "")) && negb (startswith tab l).

(** The lines of the pieces of [f] that come after the rendering of the
    configuration, as they stand in the text. *)
Definition lines_after_config (pieces : list string) : list string :=
  mjoin (split_lines <$> (tabify <$> skipn 4 pieces)).

(** * Facts about the string operations *)

Module StrFacts.

Lemma app_cons (c : ascii) (s t : string) : String c s +:+ t = String c (s +:+ t).
Proof. reflexivity. Qed.

Lemma app_nil_r (s : string) : s +:+ "" = s.
Proof. induction s as [|c s IH]; [done|]. by rewrite app_cons, IH. Qed.

Lemma app_assoc (s t u : string) : (s +:+ t) +:+ u = s +:+ t +:+ u.
Proof. induction s as [|c s IH]; [done|]. rewrite !app_cons. by rewrite IH. Qed.

Lemma length_drop (n : nat) (s : string) :
  String.length (drop n s) ≤ String.length s.
Proof.
  revert s. induction n as [|n IH]; intros [|c s]; cbn; try lia.
  specialize (IH s). lia.
Qed.

(** A string that starts with [p] is [p] and the rest. *)
Lemma startswith_drop (p s : string) :
  startswith p s = true → s = p +:+ drop (String.length p) s.
Proof.
  revert s. induction p as [|a p IH]; intros s H; [done|].
  destruct s as [|b s]; [done|]. cbn in H. case_decide; [|done]. subst b.
  rewrite app_cons. cbn [String.length drop]. f_equal. by apply IH.
Qed.

Lemma startswith_app (p s : string) : startswith p (p +:+ s) = true.
Proof.
  induction p as [|a p IH]; [done|]. rewrite app_cons. cbn.
  by rewrite decide_True.
Qed.

(** [skip] characters passed over are characters dropped. *)
Lemma replace_from_skip (old new : string) (k : nat) (s : string) :
  replace_from old new k s = replace_from old new 0 (drop k s).
Proof.
  revert k. induction s as [|c s IH]; intros [|k]; try reflexivity.
  cbn [replace_from drop]. apply IH.
Qed.

Lemma drop_app (p s : string) : drop (String.length p) (p +:+ s) = s.
Proof. induction p as [|b p IH]; [done|]. by rewrite app_cons. Qed.

(** A match at the head is replaced, and the scan goes on behind it. *)
Lemma replace_match (old new s : string) :
  old ≠ "" → replace old new (old +:+ s) = new +:+ replace old new s.
Proof.
  destruct old as [|a old]; [done|]. intros _.
  unfold replace. rewrite app_cons. cbn [replace_from].
  assert (startswith (String a old) (String a (old +:+ s)) = true) as ->
    by apply (startswith_app (String a old)).
  rewrite replace_from_skip. cbn [String.length Nat.pred]. by rewrite drop_app.
Qed.

(** A character that starts no match is kept. *)
Lemma replace_no_match (old new : string) (c : ascii) (s : string) :
  old ≠ "" → startswith old (String c s) = false →
  replace old new (String c s) = String c (replace old new s).
Proof.
  destruct old as [|a old]; [done|]. intros _ Hno.
  unfold replace. cbn [replace_from]. by rewrite Hno.
Qed.

Lemma tabify_four (s : string) : tabify ("    " +:+ s) = tab +:+ tabify s.
Proof. by apply replace_match. Qed.

Lemma tabify_other (c : ascii) (s : string) :
  startswith "    " (String c s) = false → tabify (String c s) = String c (tabify s).
Proof. by apply replace_no_match. Qed.

(** Induction along the scan of [replace]: four spaces at a time where
    they match, one character otherwise. *)
Lemma tabify_ind (P : string → Prop) :
  P "" →
  (∀ s, P s → P ("    " +:+ s)) →
  (∀ c s, startswith "    " (String c s) = false → P s → P (String c s)) →
  ∀ s, P s.
Proof.
  intros Hnil Hfour Hother s.
  assert (∀ n s, String.length s ≤ n → P s) as Hlen; [|by eapply Hlen].
  clear s. intros n. induction n as [|n IH]; intros s Hs.
  { destruct s; [done|]. cbn in Hs. lia. }
  destruct s as [|c s]; [done|].
  destruct (startswith "    " (String c s)) eqn:Hsw.
  - apply startswith_drop in Hsw. change (drop _ (String c s)) with (drop 3 s) in Hsw.
    rewrite Hsw. apply Hfour, IH.
    pose proof (length_drop 3 s). cbn in Hs. lia.
  - apply Hother; [done|]. apply IH. cbn in Hs. lia.
Qed.


Lemma startswith_four_nl (a b : string) :
  startswith "    " (a +:+ nl +:+ b) = startswith "    " a.
Proof.
  destruct a as [|c1 [|c2 [|c3 [|c4 a]]]]; rewrite ?app_cons; cbn;
    repeat case_decide; try done.
Qed.

(** The conversion does not see line feeds: it goes through the pieces
    of a text joined by them. *)
Lemma tabify_app_nl (a b : string) :
  tabify (a +:+ nl +:+ b) = tabify a +:+ nl +:+ tabify b.
Proof.
  induction a as [|a IH|c a Hc IH] using tabify_ind.
  - change ("" +:+ nl +:+ b) with (String LF b). by rewrite tabify_other.
  - rewrite app_assoc, !tabify_four, IH. by rewrite app_assoc.
  - rewrite app_cons, tabify_other, IH.
    + by rewrite (tabify_other c a).
    + by rewrite <- app_cons, startswith_four_nl.
Qed.

Lemma tabify_join (xs : list string) :
  tabify (join nl xs) = join nl (tabify <$> xs).
Proof.
  induction xs as [|x [|y xs] IH]; [done..|].
  change (join nl (x :: y :: xs)) with (x +:+ nl +:+ join nl (y :: xs)).
  by rewrite tabify_app_nl, IH.
Qed.

(** *** Lines *)

Lemma TAB_not_LF : TAB ≠ LF.
Proof. discriminate. Qed.

Lemma SPACE_not_LF : SPACE ≠ LF.
Proof. discriminate. Qed.


Lemma split_lines_cons (c : ascii) (s l : string) (ls : list string) :
  c ≠ LF → split_lines s = l :: ls → split_lines (String c s) = String c l :: ls.
Proof. intros Hc Hs. cbn. by rewrite decide_False, Hs. Qed.

Lemma split_lines_nonempty (s : string) : ∃ l ls, split_lines s = l :: ls.
Proof.
  induction s as [|c s (l & ls & IH)]; [by eexists _, _|].
  cbn. case_decide; [by eexists _, _|]. rewrite IH. by eexists _, _.
Qed.

Lemma split_lines_app_nl (a b : string) :
  split_lines (a +:+ nl +:+ b) = split_lines a ++ split_lines b.
Proof.
  induction a as [|c a IH]; [done|].
  rewrite app_cons. cbn. case_decide; [by rewrite IH|].
  rewrite IH. by destruct (split_lines_nonempty a) as (l & ls & ->).
Qed.

Lemma split_lines_join (xs : list string) :
  xs ≠ [] → split_lines (join nl xs) = mjoin (split_lines <$> xs).
Proof.
  induction xs as [|x [|y xs] IH]; intros Hne; [done| |].
  - cbn. by rewrite List.app_nil_r.
  - change (join nl (x :: y :: xs)) with (x +:+ nl +:+ join nl (y :: xs)).
    rewrite split_lines_app_nl, IH; done.
Qed.

(** Joining the lines of a text gives the text back. *)
Lemma join_split_lines (s : string) : join nl (split_lines s) = s.
Proof.
  induction s as [|c s IH]; [done|].
  destruct (split_lines_nonempty s) as (l & ls & Hs).
  cbn [split_lines]. rewrite Hs in IH |- *. case_decide as Hc.
  - subst c. change (join nl ("" :: l :: ls)) with (String LF (join nl (l :: ls))).
    by rewrite IH.
  - rewrite <- IH. by destruct ls.
Qed.

(** The conversion works line by line. *)
Lemma split_lines_tabify (s : string) :
  split_lines (tabify s) = tabify <$> split_lines s.
Proof.
  induction s as [|s IH|c s Hc IH] using tabify_ind; [done| |].
  - rewrite tabify_four. destruct (split_lines_nonempty s) as (l & ls & Hs).
    rewrite Hs in IH. cbn [fmap list_fmap] in IH.
    change (tab +:+ tabify s) with (String TAB (tabify s)).
    rewrite (split_lines_cons _ _ _ _ TAB_not_LF IH).
    assert (split_lines ("    " +:+ s) = ("    " +:+ l) :: ls) as ->.
    { change ("    " +:+ s) with (String SPACE (String SPACE (String SPACE (String SPACE s)))).
      by repeat (erewrite split_lines_cons; [|apply SPACE_not_LF|]). }
    by rewrite fmap_cons, tabify_four.
  - rewrite tabify_other by done.
    destruct (split_lines_nonempty s) as (l & ls & Hs).
    cbn [split_lines]. rewrite IH, Hs. case_decide as Hlf; [done|].
    rewrite !fmap_cons. f_equal. symmetry. apply tabify_other.
    etrans; [|exact Hc]. rewrite <- (join_split_lines s), Hs.
    destruct ls as [|l' ls]; [done|].
    change (join nl (l :: l' :: ls)) with (l +:+ nl +:+ join nl (l' :: ls)).
    by rewrite <- app_cons, startswith_four_nl.
Qed.

Lemma tabify_id (s : string) : has_four_spaces s = false → tabify s = s.
Proof.
  induction s as [|c s IH]; [done|]. intros [H1 H2]%orb_false_elim.
  rewrite tabify_other by done. by rewrite IH.
Qed.

(** The first run of four spaces, wherever it stands, becomes a tab; the
    text before it is kept and the scan goes on after it. *)
Lemma tabify_first_run (a b : string) :
  has_four_spaces (a +:+ "   ") = false →
  tabify (a +:+ "    " +:+ b) = a +:+ tab +:+ tabify b.
Proof.
  induction a as [|c a IH]; [done|].
  rewrite !(app_cons c a). cbn [has_four_spaces]. intros [H1 H2]%orb_false_elim.
  rewrite tabify_other, IH; [done..|].
  etrans; [|exact H1].
  destruct a as [|c1 [|c2 [|c3 a]]]; cbn; repeat case_decide; done.
Qed.

Lemma tabify_leading_other (s : string) :
  startswith " " s = false → tabify_leading s = s.
Proof.
  destruct s as [|c s]; [done|]. cbn [startswith]. case_decide as Hc; [done|].
  intros _. destruct c as [[] [] [] [] [] [] [] []]; done.
Qed.

Lemma tabify_indent (k : nat) (body : string) :
  tabify (repeat "    " k +:+ body) = repeat tab k +:+ tabify body.
Proof.
  induction k as [|k IH]; [done|].
  cbn [repeat]. by rewrite !app_assoc, tabify_four, IH.
Qed.

Lemma tabify_leading_indent (k : nat) (body : string) :
  startswith " " body = false →
  tabify_leading (repeat "    " k +:+ body) = repeat tab k +:+ body.
Proof.
  intros Hbody. induction k as [|k IH]; [by apply tabify_leading_other|].
  cbn [repeat]. rewrite !app_assoc.
  change (tabify_leading ("    " +:+ ?s)) with (String TAB (tabify_leading s)).
  by rewrite IH.
Qed.

(** *** Runs of four spaces after the conversion *)

Lemma length_app (s t : string) :
  String.length (s +:+ t) = String.length s + String.length t.
Proof. induction s as [|c s IH]; [done|]. rewrite app_cons. cbn. by rewrite IH. Qed.

(** A common tail can be taken off both sides. *)
Lemma app_inj_r (s1 s2 t : string) : s1 +:+ t = s2 +:+ t → s1 = s2.
Proof.
  revert s2. induction s1 as [|c1 s1 IH]; intros [|c2 s2] Heq; [done| | |].
  - apply (f_equal String.length) in Heq. rewrite !length_app in Heq.
    cbn in Heq. lia.
  - apply (f_equal String.length) in Heq. rewrite !length_app in Heq.
    cbn in Heq. lia.
  - rewrite !app_cons in Heq. injection Heq as -> Heq. f_equal. by apply IH.
Qed.

Lemma startswith_cons (a b : ascii) (p s : string) :
  startswith (String a p) (String b s)
  = if decide (a = b) then startswith p s else false.
Proof. reflexivity. Qed.

Lemma startswith_app_l (p q s : string) :
  startswith (p +:+ q) s = startswith p s && startswith q (drop (String.length p) s).
Proof.
  revert s. induction p as [|a p IH]; intros s; [done|].
  rewrite app_cons. destruct s as [|b s]; [done|].
  rewrite !startswith_cons. case_decide; [|done]. apply IH.
Qed.

(** A text that does not open with three spaces does not open with four. *)
Lemma startswith_three_four (s : string) :
  startswith "   " s = false → startswith "    " s = false.
Proof.
  intros H. change "    " with ("   " +:+ " "). by rewrite startswith_app_l, H.
Qed.

(** Where no match starts, the conversion keeps the spaces a text opens
    with. *)
Lemma startswith_spaces_tabify (n : nat) (s : string) :
  startswith "    " s = false →
  startswith (repeat " " n) (tabify s) = startswith (repeat " " n) s.
Proof.
  revert s. induction n as [|n IH]; intros s Hs; [done|].
  destruct s as [|c s]; [done|]. rewrite tabify_other by done.
  change (repeat " " (S n)) with (String SPACE (repeat " " n)).
  rewrite !startswith_cons. case_decide as Hc; [|done].
  apply IH, startswith_three_four.
  change "    " with (String SPACE "   ") in Hs. rewrite startswith_cons in Hs.
  by rewrite decide_True in Hs.
Qed.

(** The converted text holds no run of four spaces. *)
Lemma tabify_no_four_spaces (s : string) : has_four_spaces (tabify s) = false.
Proof.
  induction s as [|s IH|c s Hc IH] using tabify_ind; [done| |].
  - rewrite tabify_four. change (tab +:+ tabify s) with (String TAB (tabify s)).
    cbn [has_four_spaces]. by rewrite IH.
  - rewrite tabify_other by done. cbn [has_four_spaces]. rewrite IH, orb_false_r.
    change "    " with (String SPACE "   ") in Hc |- *.
    rewrite startswith_cons in Hc |- *. case_decide as Hsp; [|done].
    etrans; [|exact Hc]. by apply (startswith_spaces_tabify 3), startswith_three_four.
Qed.

(** Converting twice is converting once. *)
Lemma tabify_idem (s : string) : tabify (tabify s) = tabify s.
Proof. apply tabify_id, tabify_no_four_spaces. Qed.

End StrFacts.

(** * [Makefile.write] *)

Section Write.
Context `{srv : ServerModule}.
Implicit Types (self : makefile) (path : string) (overwrite : pyobj).
Implicit Types (fs : filesystem).

(** [open] either hands out the emptied file or raises and leaves the
    files as they were. *)
Lemma open_w_cases path fs :
  open_w path fs = (Return path, <[path := File ""]> fs)
  ∨ ∃ e, open_w path fs = (Raise e, fs).
Proof.
  unfold open_w. destruct (fs !! path) as [[]|]; eauto.
  destruct (fs !! Path_parent path) as [[]|]; eauto.
Qed.

Lemma open_w_file path old fs :
  fs !! path = Some (File old) → open_w path fs = (Return path, <[path := File ""]> fs).
Proof. unfold open_w. by intros ->. Qed.

Lemma open_w_new path fs :
  fs !! path = None → fs !! Path_parent path = Some Dir →
  open_w path fs = (Return path, <[path := File ""]> fs).
Proof. unfold open_w. by intros -> ->. Qed.

(** The body of the [with] statement, when [open] went through. *)
Lemma open_write_returns path data fs :
  open_w path fs = (Return path, <[path := File ""]> fs) →
  (open_w path ≫= λ f, file_write f data) fs = (Return (), <[path := File data]> fs).
Proof.
  intros Hopen. unfold mbind, IO_bind. rewrite Hopen. unfold file_write.
  by rewrite lookup_insert_eq, insert_insert_eq.
Qed.

Lemma open_write_raises path data e fs :
  open_w path fs = (Raise e, fs) →
  (open_w path ≫= λ f, file_write f data) fs = (Raise e, fs).
Proof. intros Hopen. unfold mbind, IO_bind. by rewrite Hopen. Qed.

(** The guard holds: nothing is opened, the exception leaves with the
    files as they were. *)
Lemma write_refuses self path overwrite fs :
  Path_exists (pathlib_Path path) fs = (Return true, fs) → is_True overwrite = false →
  Makefile.write self path overwrite fs
  = (Raise (IOError ("File " +:+ pathlib_Path path +:+ " exists and overwrite is not True.")), fs).
Proof.
  intros Hex Hov. unfold Makefile.write. cbv zeta. unfold mbind at 1, IO_bind at 1.
  by rewrite Hex, Hov.
Qed.

(** The guard does not hold: the call is what [open] and [f.write] do. *)
Lemma write_passes self path overwrite fs :
  is_True overwrite = true ∨ Path_exists (pathlib_Path path) fs = (Return false, fs) →
  Makefile.write self path overwrite fs
  = (open_w (pathlib_Path path) ≫= λ f, file_write f (Makefile.str self)) fs.
Proof.
  intros Hgo. unfold Makefile.write. cbv zeta. unfold mbind at 1, IO_bind at 1.
  destruct Hgo as [Hov|Hex]; [|by rewrite Hex].
  rewrite Hov. unfold Path_exists, mbind, IO_bind, open_w.
  destruct (fs !! pathlib_Path path) as [[]|] eqn:Hat;
    rewrite ?andb_false_r; cbv beta iota; by rewrite ?Hat.
Qed.


(** C2: writing to a path that exists with [overwrite=False] raises the
    destination-exists [IOError], and the file system after the call is
    the one before it: what is at the path keeps its contents, nothing
    was written.  The path is the one [pathlib.Path] makes of the
    argument, in the test and in the message. *)
Theorem write_existing_no_overwrite self path fs old :
  fs !! pathlib_Path path = Some old →
  Path_exists (pathlib_Path path) fs = (Return true, fs) →
  ∃ fs',
    Makefile.write self path (PyBool false) fs
    = (Raise (IOError ("File " +:+ pathlib_Path path
                       +:+ " exists and overwrite is not True.")), fs')
    ∧ fs' = fs ∧ fs' !! pathlib_Path path = Some old.
Proof.
  intros Hold Hex. exists fs. split; [|done]. by apply write_refuses.
Qed.

(** C3, as the code has it: [write] succeeds where [open(path, 'w')]
    does.  Writing to a path that does not exist, in a directory that is
    there, succeeds whatever [overwrite] is; writing to a regular file
    that is there with [overwrite=True] succeeds; in both cases the file
    then holds [str(self)].  Where [open] raises, and the call is not
    refused before, [write] raises the error of [open] and leaves the
    files as they were. *)
Theorem write_creates_or_replaces self path fs :
  (fs !! pathlib_Path path = None → fs !! Path_parent (pathlib_Path path) = Some Dir →
   ∀ overwrite, ∃ fs',
     Makefile.write self path overwrite fs = (Return (), fs')
     ∧ fs' !! pathlib_Path path = Some (File (Makefile.str self)))
  ∧ (∀ old, fs !! pathlib_Path path = Some (File old) →
     ∃ fs',
       Makefile.write self path (PyBool true) fs = (Return (), fs')
       ∧ fs' !! pathlib_Path path = Some (File (Makefile.str self)))
  ∧ (∀ overwrite e,
       overwrite = PyBool true ∨ Path_exists (pathlib_Path path) fs = (Return false, fs) →
       open_w (pathlib_Path path) fs = (Raise e, fs) →
       Makefile.write self path overwrite fs = (Raise e, fs)).
Proof.
  split_and!.
  - intros Hnone Hdir overwrite.
    exists (<[pathlib_Path path := File (Makefile.str self)]> fs). split.
    + rewrite write_passes by (right; unfold Path_exists; by rewrite Hnone).
      apply open_write_returns. by apply open_w_new.
    + apply lookup_insert_eq.
  - intros old Hold.
    exists (<[pathlib_Path path := File (Makefile.str self)]> fs). split.
    + rewrite write_passes by by left.
      apply open_write_returns. by apply (open_w_file _ old).
    + apply lookup_insert_eq.
  - intros overwrite e Hgo Hopen. rewrite write_passes.
    + by apply open_write_raises.
    + destruct Hgo as [->|Hex]; [by left|by right].
Qed.

(** C10: when the path exists, every [overwrite] other than the object
    [True] raises the destination-exists error and leaves the files as
    they were, also a value that counts as true in a test; [True] itself
    lets the call go on to [open], and a regular file at the path is
    replaced. *)
Theorem write_existing_overwrite_not_True self path overwrite fs :
  Path_exists (pathlib_Path path) fs = (Return true, fs) →
  (overwrite ≠ PyBool true →
   Makefile.write self path overwrite fs
   = (Raise (IOError ("File " +:+ pathlib_Path path
                      +:+ " exists and overwrite is not True.")), fs))
  ∧ (overwrite = PyBool true →
     Makefile.write self path overwrite fs
     = (open_w (pathlib_Path path) ≫= λ f, file_write f (Makefile.str self)) fs
     ∧ ∀ old, fs !! pathlib_Path path = Some (File old) →
         Makefile.write self path overwrite fs
         = (Return (), <[pathlib_Path path := File (Makefile.str self)]> fs)).
Proof.
  intros Hex. split.
  - intros Hne. apply write_refuses; [done|]. by destruct overwrite as [|[]| | | |].
  - intros ->. split; [apply write_passes; by left|].
    intros old Hold. rewrite write_passes by by left.
    apply open_write_returns. by apply (open_w_file _ old).
Qed.

End Write.

(** * [MakefileDriver] *)

Section Dispatch.
Context `{srv : ServerModule}.

Lemma driver_returns (v : pyobj) :
  MakefileDriver_new v
  = Return (Makefile.init (if isinstance_SlurmConfig v then SlurmMakefile else DefaultMakefile) v).
Proof. unfold MakefileDriver_new. by destruct (isinstance_SlurmConfig v). Qed.

(** C1: for a [SlurmConfig] the driver builds a [SlurmMakefile], whose
    [str] is [SlurmMakefile.__str__]; for every other recognized value (a
    [ServerConfig], or [None]) it builds a [DefaultMakefile], whose [str]
    is [DefaultMakefile.__str__]. *)
Theorem driver_selects_renderer (v : pyobj) :
  recognized_config v = true →
  ∃ mk,
    MakefileDriver_new v = Return mk
    ∧ (isinstance_SlurmConfig v = true →
       ob_type mk = SlurmMakefile ∧ server_config mk = v
       ∧ Makefile.str mk = Makefile.SlurmMakefile_str mk)
    ∧ (isinstance_SlurmConfig v = false →
       ob_type mk = DefaultMakefile
       ∧ Makefile.str mk = Makefile.DefaultMakefile_str mk).
Proof.
  intros _. eexists. split; [apply driver_returns|].
  split; intros Hkind; rewrite Hkind; [|done]. by destruct v.
Qed.

(** C5, as the code has it: a value of no recognized kind raises nothing.
    The driver returns a [DefaultMakefile] that holds the value as it
    came, and its text carries [str] of the value where the
    configuration block goes. *)
Theorem driver_unrecognized_is_default (v : pyobj) :
  recognized_config v = false →
  MakefileDriver_new v = Return {| ob_type := DefaultMakefile; server_config := v |}
  ∧ (∀ e, MakefileDriver_new v ≠ Raise e)
  ∧ Makefile.f {| ob_type := DefaultMakefile; server_config := v |}
    = header ++ [py_str v; DefaultMakefile_default; Makefile_symlinks;
                 DefaultMakefile_run; Makefile_tail].
Proof.
  intros Hkind. rewrite driver_returns.
  destruct v; try discriminate Hkind; by split_and!.
Qed.

(** C9: the text is fixed by the class the driver chose and by [str] of
    the configuration the object holds: two configurations of the same
    variant with equal renderings give the same text. *)
Theorem script_determined_by_rendering (c1 c2 : pyobj) (mk1 mk2 : makefile) :
  MakefileDriver_new c1 = Return mk1 →
  MakefileDriver_new c2 = Return mk2 →
  isinstance_SlurmConfig c1 = isinstance_SlurmConfig c2 →
  py_str (server_config mk1) = py_str (server_config mk2) →
  Makefile.str mk1 = Makefile.str mk2.
Proof.
  rewrite !driver_returns. intros [= <-] [= <-] Hvariant Hstr.
  rewrite <- Hvariant in *.
  unfold Makefile.str, Makefile.DefaultMakefile_str, Makefile.SlurmMakefile_str,
    Makefile.DefaultMakefile_f, Makefile.SlurmMakefile_f.
  destruct (isinstance_SlurmConfig c1); cbn [ob_type Makefile.init]; by rewrite Hstr.
Qed.

End Dispatch.

(** * The text of the generators *)

Section Text.
Context `{srv : ServerModule}.
Implicit Types (mk : makefile) (l : string).

Lemma f_nonempty mk : Makefile.f mk ≠ [].
Proof. by destruct mk as [[] c]. Qed.

(** [str(self)] is the joined list [f], converted as a whole. *)
Lemma str_tabify mk : Makefile.str mk = tabify (join nl (Makefile.f mk)).
Proof. rewrite StrFacts.tabify_join. by destruct mk as [[] c]. Qed.

Lemma lines_str mk :
  split_lines (Makefile.str mk) = tabify <$> split_lines (join nl (Makefile.f mk)).
Proof. by rewrite str_tabify, StrFacts.split_lines_tabify. Qed.

Lemma lines_str_pieces mk :
  split_lines (Makefile.str mk) = mjoin (split_lines <$> (tabify <$> Makefile.f mk)).
Proof.
  rewrite str_tabify, StrFacts.tabify_join, StrFacts.split_lines_join; [done|].
  intros Hnil%fmap_nil_inv. by apply (f_nonempty mk).
Qed.

(** In the fixed text every run of four spaces is at the start of its
    line: converting all runs is converting the leading ones. *)
Lemma template_lines_leading :
  Forall (λ l, tabify l = tabify_leading l) template_lines.
Proof. apply (bool_decide_unpack _). by vm_compute. Qed.

(** C4: a line of the fixed template text stands in the output at the
    place it has before the conversion, with its leading groups of four
    spaces, and nothing else, turned into tabs: a line indented with four
    spaces starts with a single tab, followed by the rest of the line as
    it was; a line indented with [k] groups of four spaces starts with
    [k] tabs; a line that is not indented is kept. *)
Theorem template_lines_tabbed mk (i : nat) l :
  split_lines (join nl (Makefile.f mk)) !! i = Some l →
  l ∈ template_lines →
  split_lines (Makefile.str mk) !! i = Some (tabify_leading l)
  ∧ (∀ body, l = "    " +:+ body → startswith " " body = false →
       split_lines (Makefile.str mk) !! i = Some (tab +:+ body))
  ∧ (∀ k body, l = repeat "    " k +:+ body → startswith " " body = false →
       split_lines (Makefile.str mk) !! i = Some (repeat tab k +:+ body)).
Proof.
  intros Hl Hin.
  assert (split_lines (Makefile.str mk) !! i = Some (tabify_leading l)) as Hline.
  { rewrite lines_str, list_lookup_fmap, Hl. cbn [fmap option_fmap option_map].
    f_equal. apply (proj1 (Forall_forall _ _) template_lines_leading _ Hin). }
  split_and!; [done|..].
  - intros body -> Hbody. rewrite Hline.
    change (tabify_leading ("    " +:+ body)) with (String TAB (tabify_leading body)).
    by rewrite StrFacts.tabify_leading_other.
  - intros k body -> Hbody. by rewrite Hline, StrFacts.tabify_leading_indent.
Qed.

(** X13: the conversion goes line by line, and on a line it replaces
    every run of four spaces, scanning from the left, whether the run is
    leading or not, also in the lines of the configuration; text with no
    such run is kept.  A line indented by [k] groups of four spaces gets
    [k] tabs.  In the fixed template text the runs are all leading, so
    there the leading groups of four spaces, and nothing else, become
    tabs. *)
Theorem four_spaces_become_tabs mk (i : nat) l :
  split_lines (join nl (Makefile.f mk)) !! i = Some l →
  split_lines (Makefile.str mk) !! i = Some (tabify l)
  ∧ (∀ a b, l = a +:+ "    " +:+ b → has_four_spaces (a +:+ "   ") = false →
       tabify l = a +:+ tab +:+ tabify b)
  ∧ (∀ k body, l = repeat "    " k +:+ body → has_four_spaces body = false →
       tabify l = repeat tab k +:+ body)
  ∧ (has_four_spaces l = false → tabify l = l)
  ∧ (l ∈ template_lines →
     tabify l = tabify_leading l
     ∧ ∀ body, l = "    " +:+ body → startswith " " body = false →
         tabify l = tab +:+ body).
Proof.
  intros Hl. split_and!.
  - by rewrite lines_str, list_lookup_fmap, Hl.
  - intros a b -> Ha. by apply StrFacts.tabify_first_run.
  - intros k body -> Hbody. by rewrite StrFacts.tabify_indent, StrFacts.tabify_id.
  - apply StrFacts.tabify_id.
  - intros Hin.
    assert (tabify l = tabify_leading l) as Hlead
      by apply (proj1 (Forall_forall _ _) template_lines_leading _ Hin).
    split; [done|]. intros body -> Hbody. rewrite Hlead.
    change (tabify_leading ("    " +:+ body)) with (String TAB (tabify_leading body)).
    by rewrite StrFacts.tabify_leading_other.
Qed.

(** C6, as the code has it: for one configuration the text of the batch
    class and the text of the local class open with the same header
    lines and the same rendering, and both hold the same [symlinks]
    lines and the same [tail] lines; the batch text has the [slurm]
    lines before those of [run].  The [default] sections are not the
    same: the batch one makes [default] depend on [slurm], the local one
    on [symlinks]. *)
Theorem slurm_sections_vs_default (a : attrs) :
  let batch := Makefile.init SlurmMakefile (PySlurmConfig a) in
  let local := Makefile.init DefaultMakefile (PySlurmConfig a) in
  let lines_of piece := split_lines (tabify piece) in
  split_lines (Makefile.str local)
  = header ++ lines_of (SlurmConfig_str a) ++ lines_of (Makefile.default local)
    ++ lines_of Makefile_symlinks
    ++ lines_of (Makefile.run local) ++ lines_of Makefile_tail
  ∧ split_lines (Makefile.str batch)
    = header ++ lines_of (SlurmConfig_str a) ++ lines_of (Makefile.default batch)
      ++ lines_of Makefile_symlinks ++ lines_of SlurmMakefile_slurm
      ++ lines_of (Makefile.run batch) ++ lines_of Makefile_tail
  ∧ lines_of (Makefile.default local) = [""; "default: symlinks"; ""]
  ∧ lines_of (Makefile.default batch) = [""; "default: slurm"; ""]
  ∧ Makefile.default batch ≠ Makefile.default local.
Proof.
  cbv zeta. rewrite !lines_str_pieces. split_and!; [| |done..].
  - cbn [Makefile.f Makefile.init ob_type Makefile.DefaultMakefile_f fmap list_fmap
         mjoin list_join].
    by rewrite (right_id_L [] (++)).
  - cbn [Makefile.f Makefile.init ob_type Makefile.SlurmMakefile_f fmap list_fmap
         mjoin list_join].
    by rewrite (right_id_L [] (++)).
Qed.

(** C8: the batch [run] rule opens with the line
    [run: $(if ! $("$(wildcard $(SLURM_JOB_FILE))",""), slurm)]; the tab
    conversion leaves it as it is, and it is a line of the text the
    driver's object renders, whatever the configuration. *)
Theorem slurm_run_rule_literal (a : attrs) :
  ∃ mk,
    MakefileDriver_new (PySlurmConfig a) = Return mk
    ∧ split_lines (Makefile.run mk) !! 1 = Some run_rule_line
    ∧ tabify run_rule_line = run_rule_line
    ∧ run_rule_line ∈ split_lines (Makefile.str mk).
Proof.
  eexists. split; [reflexivity|]. split_and!; [done..|].
  rewrite lines_str_pieces. apply list_elem_of_join.
  exists (split_lines (tabify SlurmMakefile_run)). split.
  - apply list_elem_of_lookup. exists 1. by vm_compute.
  - apply list_elem_of_fmap_2, list_elem_of_fmap_2.
    apply list_elem_of_lookup. by exists 7.
Qed.


End Text.

(** * Further properties of the classes *)

Section Objects.
Context `{srv : ServerModule}.
Implicit Types (self mk : makefile) (path : string) (overwrite : pyobj).
Implicit Types (fs : filesystem).


(** X3: a write with [overwrite=True] makes what was written before to
    the same path of no account: after a write that went through, it
    leaves the files as if it had been the only one; and where the first
    write fails in [open], it fails alone in the same way. *)
Theorem overwrite_forgets_first_write mk1 mk2 path ow1 fs :
  Path_exists (pathlib_Path path) fs = (Return false, fs) ∨ ow1 = PyBool true →
  (Makefile.write mk1 path ow1 ≫= λ _, Makefile.write mk2 path (PyBool true)) fs
  = Makefile.write mk2 path (PyBool true) fs.
Proof.
  intros Hfirst. unfold mbind at 1, IO_bind at 1.
  rewrite (write_passes mk1) by (destruct Hfirst as [?| ->]; [by right|by left]).
  rewrite (write_passes mk2 path (PyBool true) fs) by by left.
  destruct (open_w_cases (pathlib_Path path) fs) as [Hopen|[e Hopen]].
  - rewrite !(open_write_returns _ _ _ Hopen).
    rewrite write_passes by by left.
    rewrite open_write_returns; [by rewrite insert_insert_eq|].
    apply (open_w_file _ (Makefile.str mk1)), lookup_insert_eq.
  - by rewrite !(open_write_raises _ _ _ _ Hopen).
Qed.

(** The lines of a text: the header, the lines of the configuration,
    and the lines of the fixed pieces. *)
Lemma lines_str_split mk :
  split_lines (Makefile.str mk)
  = (header ++ split_lines (tabify (py_str (server_config mk))))
    ++ lines_after_config (Makefile.f mk).
Proof.
  rewrite lines_str_pieces. unfold lines_after_config.
  destruct mk as [[] c];
    cbn [Makefile.f ob_type server_config Makefile.DefaultMakefile_f
         Makefile.SlurmMakefile_f fmap list_fmap mjoin list_join skipn];
    by rewrite <- (assoc_L (++)).
Qed.

(** X4: no text the classes render holds a run of four spaces, whatever
    the configuration renders as; so converting a text again changes
    nothing, neither as a whole nor line by line. *)
Theorem text_has_no_four_spaces mk :
  has_four_spaces (Makefile.str mk) = false
  ∧ tabify (Makefile.str mk) = Makefile.str mk
  ∧ tabify <$> split_lines (Makefile.str mk) = split_lines (Makefile.str mk).
Proof.
  assert (has_four_spaces (Makefile.str mk) = false) as Hno
    by (rewrite str_tabify; apply StrFacts.tabify_no_four_spaces).
  split_and!; [done|by apply StrFacts.tabify_id|].
  rewrite <- StrFacts.split_lines_tabify. by rewrite StrFacts.tabify_id.
Qed.

(** X5: two objects of one class render the same text exactly when
    their configurations render alike up to the tab conversion; the text
    tells nothing more of the configuration. *)
Theorem same_text_iff_same_converted_rendering mk1 mk2 :
  ob_type mk1 = ob_type mk2 →
  Makefile.str mk1 = Makefile.str mk2
  ↔ tabify (py_str (server_config mk1)) = tabify (py_str (server_config mk2)).
Proof.
  destruct mk1 as [cls c1], mk2 as [cls2 c2]. cbn [ob_type server_config].
  intros <-. unfold tabify. split.
  - destruct cls; cbn -[replace]; intros Heq;
      do 6 apply (inj (String.app _)) in Heq;
      by apply StrFacts.app_inj_r in Heq.
  - intros Heq. destruct cls; cbn -[replace]; by rewrite Heq.
Qed.

(** X6: a text of the local class is never a text of the batch class,
    whatever the two configurations render as: seven lines from the end
    the one launches the binary and the other closes its polling loop. *)
Theorem classes_never_same_text mk1 mk2 :
  ob_type mk1 = DefaultMakefile → ob_type mk2 = SlurmMakefile →
  Makefile.str mk1 ≠ Makefile.str mk2.
Proof.
  destruct mk1 as [cls1 c1], mk2 as [cls2 c2]. cbn [ob_type]. intros -> -> Heq.
  apply (f_equal split_lines) in Heq. rewrite !lines_str_split in Heq.
  apply (f_equal reverse) in Heq. rewrite !reverse_app in Heq.
  apply (f_equal (.!! 6)) in Heq.
  rewrite !lookup_app_l in Heq by (vm_compute; lia).
  vm_compute in Heq. discriminate Heq.
Qed.

(** X7: after the lines of the configuration, the lines that open a
    rule are [default], [symlinks], [run] and [tail], with [slurm] before
    [run] in the batch text, each once and in this order; no line
    starts with a space, so that every other line is empty or starts
    with the tab make wants before a command. *)
Theorem rule_lines_after_config mk :
  split_lines (Makefile.str mk)
  = (header ++ split_lines (tabify (py_str (server_config mk))))
    ++ lines_after_config (Makefile.f mk)
  ∧ filter rule_line (lines_after_config (Makefile.f mk))
    = match ob_type mk with
      | DefaultMakefile => ["default: symlinks"; "symlinks:"; "run: default"; "tail:"]
      | SlurmMakefile =>
          ["default: slurm"; "symlinks:"; "slurm: symlinks"; run_rule_line; "tail:"]
      end
  ∧ Forall (λ l, startswith " " l = false) (lines_after_config (Makefile.f mk)).
Proof.
  split; [apply lines_str_split|].
  destruct mk as [[] c]; (split; [by vm_compute|]);
    apply (bool_decide_unpack _); by vm_compute.
Qed.

End Objects.

(** * The driver at work

    The theorems above at concrete values, with [demo_server] standing in
    for [pyschism.server]. *)

#[local] Existing Instance demo_server.

Definition local_config : pyobj :=
  PyServerConfig [("MPI_LAUNCHER", "mpirun -n"); ("NPROC", "4"); ("SCHISM_BINARY", "/opt/schism")].

Definition batch_config : pyobj :=
  PySlurmConfig [("SLURM_NTASKS", "4"); ("SLURM_WALLTIME", "02:00:00")].

Definition batch_makefile : makefile :=
  {| ob_type := SlurmMakefile; server_config := batch_config |}.

Definition local_makefile : makefile :=
  {| ob_type := DefaultMakefile; server_config := local_config |}.

(** A directory with nothing in it, one with a Makefile, and one with the
    [outputs] directory that [make symlinks] creates. *)
Definition empty_dir : filesystem := {[ "." := Dir ]}.

Definition one_file : filesystem := <[ "Makefile" := File "all:" ]> empty_dir.

Definition with_outputs : filesystem := <[ "outputs" := Dir ]> empty_dir.

(** The driver on a batch configuration. *)
Lemma driver_selects_renderer_witness :
  recognized_config batch_config = true
  ∧ ∃ mk,
      MakefileDriver_new batch_config = Return mk
      ∧ (isinstance_SlurmConfig batch_config = true →
         ob_type mk = SlurmMakefile ∧ server_config mk = batch_config
         ∧ Makefile.str mk = Makefile.SlurmMakefile_str mk)
      ∧ (isinstance_SlurmConfig batch_config = false →
         ob_type mk = DefaultMakefile
         ∧ Makefile.str mk = Makefile.DefaultMakefile_str mk).
Proof.
  split; [reflexivity|].
  apply (driver_selects_renderer batch_config). reflexivity.
Defined.

(** [write("./Makefile")] where a Makefile is: refused, the file kept. *)
Lemma write_existing_no_overwrite_witness :
  one_file !! pathlib_Path "./Makefile" = Some (File "all:")
  ∧ Path_exists (pathlib_Path "./Makefile") one_file = (Return true, one_file)
  ∧ ∃ fs',
      Makefile.write local_makefile "./Makefile" (PyBool false) one_file
      = (Raise (IOError "File Makefile exists and overwrite is not True."), fs')
      ∧ fs' = one_file ∧ fs' !! "Makefile" = Some (File "all:").
Proof.
  split; [reflexivity|]. split; [reflexivity|].
  apply (write_existing_no_overwrite local_makefile "./Makefile" one_file (File "all:"));
    reflexivity.
Defined.

(** C3 as stated fails: [write("nodir/Makefile")] where no [nodir] is.
    The path does not exist, [open] raises [FileNotFoundError], and so
    does [write]; nothing is written.  And [write("outputs",
    overwrite=True)] on the directory [outputs]: the path exists, [open]
    raises [IsADirectoryError]. *)
Lemma write_where_open_raises :
  Path_exists (pathlib_Path "nodir/Makefile") empty_dir = (Return false, empty_dir)
  ∧ Makefile.write local_makefile "nodir/Makefile" (PyBool false) empty_dir
    = (Raise (FileNotFoundError "nodir/Makefile"), empty_dir)
  ∧ (¬ ∃ fs', Makefile.write local_makefile "nodir/Makefile" (PyBool false) empty_dir
              = (Return (), fs'))
  ∧ Path_exists (pathlib_Path "outputs") with_outputs = (Return true, with_outputs)
  ∧ Makefile.write local_makefile "outputs" (PyBool true) with_outputs
    = (Raise (IsADirectoryError "outputs"), with_outputs)
  ∧ (¬ ∃ fs', Makefile.write local_makefile "outputs" (PyBool true) with_outputs
              = (Return (), fs')).
Proof.
  assert (Makefile.write local_makefile "nodir/Makefile" (PyBool false) empty_dir
          = (Raise (FileNotFoundError "nodir/Makefile"), empty_dir)) as Hnodir
    by reflexivity.
  assert (Makefile.write local_makefile "outputs" (PyBool true) with_outputs
          = (Raise (IsADirectoryError "outputs"), with_outputs)) as Hdir
    by reflexivity.
  split_and!; [reflexivity|exact Hnodir| |reflexivity|exact Hdir|].
  - intros [fs' Hret]. rewrite Hnodir in Hret. discriminate Hret.
  - intros [fs' Hret]. rewrite Hdir in Hret. discriminate Hret.
Qed.

(** [write("Makefile")] into a directory with nothing in it, and
    [write("Makefile", overwrite=True)] over a file that is there. *)
Lemma write_creates_or_replaces_witness :
  empty_dir !! pathlib_Path "Makefile" = None
  ∧ empty_dir !! Path_parent (pathlib_Path "Makefile") = Some Dir
  ∧ one_file !! pathlib_Path "Makefile" = Some (File "all:")
  ∧ (∃ fs',
       Makefile.write local_makefile "Makefile" (PyBool false) empty_dir
       = (Return (), fs')
       ∧ fs' !! "Makefile" = Some (File (Makefile.str local_makefile)))
  ∧ (∃ fs',
       Makefile.write local_makefile "Makefile" (PyBool true) one_file
       = (Return (), fs')
       ∧ fs' !! "Makefile" = Some (File (Makefile.str local_makefile))).
Proof.
  split; [reflexivity|]. split; [reflexivity|]. split; [reflexivity|]. split.
  - apply (proj1 (write_creates_or_replaces local_makefile "Makefile" empty_dir));
      reflexivity.
  - apply (proj1 (proj2 (write_creates_or_replaces local_makefile "Makefile" one_file))
             "all:").
    reflexivity.
Defined.

(** [write("Makefile", overwrite=1)]: [1] counts as true in a test and
    is not [True]; the call is refused. *)
Lemma write_existing_overwrite_not_True_witness :
  Path_exists (pathlib_Path "Makefile") one_file = (Return true, one_file)
  ∧ PyInt 1 ≠ PyBool true
  ∧ truthy (PyInt 1) = true
  ∧ Makefile.write local_makefile "Makefile" (PyInt 1) one_file
    = (Raise (IOError "File Makefile exists and overwrite is not True."), one_file).
Proof.
  split; [reflexivity|]. split; [discriminate|]. split; [reflexivity|].
  apply (proj1 (write_existing_overwrite_not_True
                  local_makefile "Makefile" (PyInt 1) one_file ltac:(reflexivity))).
  discriminate.
Defined.

(** C5 as stated fails: the integer [7] is no configuration, and the
    driver returns a [DefaultMakefile] for it instead of raising. *)
Lemma unrecognized_kind_not_raised :
  recognized_config (PyInt 7) = false
  ∧ isinstance_SlurmConfig (PyInt 7) = false
  ∧ MakefileDriver_new (PyInt 7)
    = Return {| ob_type := DefaultMakefile; server_config := PyInt 7 |}
  ∧ ¬ ∃ e, MakefileDriver_new (PyInt 7) = Raise e.
Proof. split_and!; [done..|]. by intros [e He]. Qed.

(** What the driver builds for [7]. *)
Lemma driver_unrecognized_is_default_witness :
  recognized_config (PyInt 7) = false
  ∧ MakefileDriver_new (PyInt 7)
    = Return {| ob_type := DefaultMakefile; server_config := PyInt 7 |}
  ∧ (∀ e, MakefileDriver_new (PyInt 7) ≠ Raise e)
  ∧ Makefile.f {| ob_type := DefaultMakefile; server_config := PyInt 7 |}
    = header ++ ["7"; DefaultMakefile_default; Makefile_symlinks;
                 DefaultMakefile_run; Makefile_tail].
Proof.
  split; [reflexivity|].
  apply (driver_unrecognized_is_default (PyInt 7)). reflexivity.
Defined.

(** Two batch configurations that differ and render alike. *)
Lemma script_determined_by_rendering_witness :
  let c1 := PySlurmConfig [("SLURM_PARTITION", "a=b")] in
  let c2 := PySlurmConfig [("SLURM_PARTITION=a", "b")] in
  c1 ≠ c2
  ∧ py_str c1 = py_str c2
  ∧ Makefile.str {| ob_type := SlurmMakefile; server_config := c1 |}
    = Makefile.str {| ob_type := SlurmMakefile; server_config := c2 |}.
Proof.
  split; [discriminate|]. split; [reflexivity|].
  apply (script_determined_by_rendering
           (PySlurmConfig [("SLURM_PARTITION", "a=b")])
           (PySlurmConfig [("SLURM_PARTITION=a", "b")]));
    reflexivity.
Defined.

(** The line [    @set -e;\] of the [symlinks] rule in a local text. *)
Lemma template_lines_tabbed_witness :
  split_lines (join nl (Makefile.f local_makefile)) !! 11 = Some "    @set -e;\"
  ∧ ("    @set -e;\" ∈ template_lines)
  ∧ split_lines (Makefile.str local_makefile) !! 11 = Some (tab +:+ "@set -e;\").
Proof.
  assert ("    @set -e;\" ∈ template_lines) as Hin
    by (apply (bool_decide_unpack _); vm_compute; exact I).
  assert (split_lines (join nl (Makefile.f local_makefile)) !! 11
          = Some "    @set -e;\") as Hl by reflexivity.
  split; [exact Hl|]. split; [exact Hin|].
  destruct (template_lines_tabbed local_makefile 11 "    @set -e;\" Hl Hin)
    as (_ & Hone & _).
  apply (Hone "@set -e;\"); reflexivity.
Defined.

(** A line of the configuration block that is indented with four spaces
    and has four more spaces inside.  Both runs are converted; converting
    the leading one alone would give another text. *)
Lemma inner_four_spaces_converted :
  let mk :=
    Makefile.init DefaultMakefile
      (PyServerConfig [("    MPI_LAUNCHER", "mpirun    -n")]) in
  split_lines (join nl (Makefile.f mk)) !! 3
  = Some "    MPI_LAUNCHER=mpirun    -n"
  ∧ split_lines (Makefile.str mk) !! 3
    = Some (tab +:+ "MPI_LAUNCHER=mpirun" +:+ tab +:+ "-n")
  ∧ tabify_leading "    MPI_LAUNCHER=mpirun    -n" = tab +:+ "MPI_LAUNCHER=mpirun    -n"
  ∧ split_lines (Makefile.str mk) !! 3
    ≠ Some (tabify_leading "    MPI_LAUNCHER=mpirun    -n").
Proof. split_and!; [by vm_compute..|]. vm_compute. discriminate. Qed.

(** The same line, as [str.replace] leaves it. *)
Lemma four_spaces_become_tabs_witness :
  let mk :=
    Makefile.init DefaultMakefile
      (PyServerConfig [("    MPI_LAUNCHER", "mpirun    -n")]) in
  split_lines (join nl (Makefile.f mk)) !! 3
  = Some "    MPI_LAUNCHER=mpirun    -n"
  ∧ split_lines (Makefile.str mk) !! 3
    = Some (tabify "    MPI_LAUNCHER=mpirun    -n").
Proof.
  split; [reflexivity|].
  apply (four_spaces_become_tabs
           (Makefile.init DefaultMakefile
              (PyServerConfig [("    MPI_LAUNCHER", "mpirun    -n")]))
           3 "    MPI_LAUNCHER=mpirun    -n").
  reflexivity.
Defined.

(** C6 as stated fails: for one configuration the [default] sections of
    the two classes differ, and the line each puts in the text is not a
    line of the other text. *)
Lemma default_sections_differ :
  let batch := Makefile.init SlurmMakefile batch_config in
  let local := Makefile.init DefaultMakefile batch_config in
  Makefile.default batch ≠ Makefile.default local
  ∧ ("default: slurm" ∈ split_lines (Makefile.str batch))
  ∧ ("default: slurm" ∉ split_lines (Makefile.str local))
  ∧ ("default: symlinks" ∈ split_lines (Makefile.str local))
  ∧ ("default: symlinks" ∉ split_lines (Makefile.str batch)).
Proof.
  split_and!; [discriminate|..]; apply (bool_decide_unpack _); by vm_compute.
Qed.

(** * The further properties at work *)


(** [write("Makefile")] and then [write("Makefile", overwrite=True)] of
    another object. *)
Lemma overwrite_forgets_first_write_witness :
  Path_exists (pathlib_Path "Makefile") empty_dir = (Return false, empty_dir)
  ∧ (Makefile.write local_makefile "Makefile" (PyBool false)
       ≫= λ _, Makefile.write batch_makefile "Makefile" (PyBool true)) empty_dir
    = Makefile.write batch_makefile "Makefile" (PyBool true) empty_dir.
Proof.
  split; [reflexivity|].
  apply (overwrite_forgets_first_write local_makefile batch_makefile "Makefile"
           (PyBool false) empty_dir).
  left. reflexivity.
Defined.

(** Two configurations, one with four spaces and one with a tab in a
    value: the renderings differ, the texts do not. *)
Lemma same_text_iff_same_converted_rendering_witness :
  let mk1 := {| ob_type := DefaultMakefile;
                server_config := PyServerConfig [("MPI_LAUNCHER", "mpirun    -n")] |} in
  let mk2 := {| ob_type := DefaultMakefile;
                server_config := PyServerConfig [("MPI_LAUNCHER", "mpirun" +:+ tab +:+ "-n")] |} in
  ob_type mk1 = ob_type mk2
  ∧ py_str (server_config mk1) ≠ py_str (server_config mk2)
  ∧ Makefile.str mk1 = Makefile.str mk2.
Proof.
  cbv zeta. split; [reflexivity|]. split; [vm_compute; discriminate|].
  apply same_text_iff_same_converted_rendering; [reflexivity|].
  vm_compute. reflexivity.
Defined.

(** The local and the batch text of the two configurations above. *)
Lemma classes_never_same_text_witness :
  ob_type local_makefile = DefaultMakefile
  ∧ ob_type batch_makefile = SlurmMakefile
  ∧ Makefile.str local_makefile ≠ Makefile.str batch_makefile.
Proof.
  split; [reflexivity|]. split; [reflexivity|].
  apply (classes_never_same_text local_makefile batch_makefile); reflexivity.
Defined.

(** A batch configuration with the log file [slurm-%j.out] and a wall
    time: the lines of its rendering stand in the text as they are,
    above the [slurm] rule. *)
Example batch_text_with_percent :
  let mk :=
    Makefile.init SlurmMakefile
      (PySlurmConfig [("SLURM_JOB_FILE", "job.sh"); ("SLURM_LOG_FILE", "slurm-%j.out");
                      ("SLURM_NTASKS", "4"); ("SLURM_WALLTIME", "02:00:00")]) in
  MakefileDriver_new (server_config mk) = Return mk
  ∧ split_lines (Makefile.str mk) !! 4 = Some "SLURM_LOG_FILE=slurm-%j.out"
  ∧ split_lines (Makefile.str mk) !! 6 = Some "SLURM_WALLTIME=02:00:00"
  ∧ split_lines (Makefile.str mk) !! 22 = Some "slurm: symlinks".
Proof. split_and!; reflexivity. Qed.

(** * Paths on small inputs *)

Example Path_normalised :
  pathlib_Path <$> ["Makefile"; "./Makefile"; "run//Makefile"; "run/./Makefile"; "run/";
                    "/"; "//"; "///"; "//srv/run"; "///srv"; "../Makefile"; ""; "."]
  = ["Makefile"; "Makefile"; "run/Makefile"; "run/Makefile"; "run";
     "/"; "//"; "/"; "//srv/run"; "/srv"; "../Makefile"; "."; "."].
Proof. reflexivity. Qed.

Example Path_parent_of :
  Path_parent <$> ["Makefile"; "run/Makefile"; "/Makefile"; "/"; "."; ".."; "run/../Makefile"]
  = ["."; "run"; "/"; "/"; "."; "."; "run/.."].
Proof. reflexivity. Qed.

(** [open] where a file stands in the place of the directory. *)
Example open_under_a_file :
  Path_exists "Makefile/x" one_file = (Return false, one_file)
  ∧ open_w "Makefile/x" one_file = (Raise (NotADirectoryError "Makefile/x"), one_file).
Proof. split; reflexivity. Qed.

(** A Makefile the process may not write: without [overwrite=True] the
    call is refused as for any file, with it [open] raises.  And a name
    the system does not take: [exists()] raises before anything else. *)
Example write_where_the_system_refuses :
  let locked := <["Makefile" := Unwritable (PermissionError "Makefile")]> empty_dir in
  let name := repeat "a" 300 in
  let long := <[name := Unexaminable (OSError 36 name)]> empty_dir in
  Makefile.write local_makefile "Makefile" (PyBool false) locked
  = (Raise (IOError "File Makefile exists and overwrite is not True."), locked)
  ∧ Makefile.write local_makefile "Makefile" (PyBool true) locked
    = (Raise (PermissionError "Makefile"), locked)
  ∧ Makefile.write local_makefile name (PyBool true) long
    = (Raise (OSError 36 name), long).
Proof. split_and!; reflexivity. Qed.

(** * The string operations on small inputs *)

Example replace_all_runs :
  replace "    " tab "        x    y   z" = tab +:+ tab +:+ "x" +:+ tab +:+ "y   z".
Proof. reflexivity. Qed.

Example replace_five_spaces : replace "    " tab "     x" = tab +:+ " x".
Proof. reflexivity. Qed.

Example replace_no_overlap : replace "aa" "b" "aaaaa" = "bba".
Proof. reflexivity. Qed.

Example replace_empty_pattern : replace "" "-" "abc" = "-a-b-c-".
Proof. reflexivity. Qed.

Example split_lines_keeps_empty :
  split_lines ("a" +:+ nl +:+ nl +:+ "b" +:+ nl) = ["a"; ""; "b"; ""].
Proof. reflexivity. Qed.

Example join_three : join ", " ["a"; "b"; "c"] = "a, b, c".
Proof. reflexivity. Qed.

Example eight_spaces_two_tabs :
  tabify "        mkdir -p $${ROOT_DIR}outputs;\" = tab +:+ tab +:+ "mkdir -p $${ROOT_DIR}outputs;\".
Proof. reflexivity. Qed.

Example str_of_values :
  py_str PyNone = "None" ∧ py_str (PyBool true) = "True" ∧ py_str (PyInt (-12)) = "-12".
Proof. split_and!; reflexivity. Qed.
